(** * PyQt-Figma-Designer: the generator composition framework

    A shallow embedding of [generator/design/design_generator.py],
    [generator/design/core/vector_generator.py],
    [generator/design/core/frame_generator.py] and
    [generator/design/components/custom_button_generator.py].

    - Python [str] values are [string]s; character-level methods work on the
      list of characters.  The character methods ([isalnum], [isdigit],
      [lower], [title]) are given for the 7-bit ASCII code points, the range
      on which Rocq's [ascii] and Python's [str] agree; a code of 128 and
      above counts as neither a letter nor a digit.
    - Python numbers (the [int]s and [float]s read from the Figma JSON) are an
      interface [Number]; [float_Number] instantiates it with binary64.
    - The class attributes [used_names], [graphic_counter], [svg_counter] and
      [windows], the generator objects and the files written are one
      explicit [State]; generators are objects of a heap and are referred to
      by their address, so that a parent and a backing group may be the same
      object. *)

From Stdlib Require Import Floats ZArith Ascii.
From Stdlib Require String.
From stdpp Require Import base list gmap strings pretty.

Local Open Scope Z_scope.
Local Open Scope nat_scope.

(** ** Python [str] methods *)

Module PyStr.

Definition chars (s : string) : list ascii := String.list_ascii_of_string s.
Definition str (l : list ascii) : string := String.string_of_list_ascii l.

Definition code (c : ascii) : N := N_of_ascii c.

Definition underscore : ascii := "_"%char.
Definition space : ascii := " "%char.

(** [c.isdigit()] *)
Definition isdigit (c : ascii) : bool :=
  (48 <=? code c)%N && (code c <=? 57)%N.
(** [c.isupper()] and [c.islower()] *)
Definition isupper (c : ascii) : bool :=
  (65 <=? code c)%N && (code c <=? 90)%N.
Definition islower (c : ascii) : bool :=
  (97 <=? code c)%N && (code c <=? 122)%N.
(** [c.isalnum()] *)
Definition isalnum (c : ascii) : bool :=
  isdigit c || isupper c || islower c.

(** [c.lower()] and [c.upper()] *)
Definition lower_char (c : ascii) : ascii :=
  if isupper c then ascii_of_N (code c + 32) else c.
Definition upper_char (c : ascii) : ascii :=
  if islower c then ascii_of_N (code c - 32) else c.

Definition is_underscore (c : ascii) : bool := bool_decide (c = underscore).

(** [s.replace(a, b)] for single characters [a] and [b] *)
Definition replace_char (a b : ascii) (l : list ascii) : list ascii :=
  (fun c => if bool_decide (c = a) then b else c) <$> l.

(** [s.lower()] *)
Definition lower (l : list ascii) : list ascii := lower_char <$> l.

(** ['__' in s] *)
Fixpoint contains_uu (l : list ascii) : bool :=
  match l with
  | a :: (b :: _) as r => (is_underscore a && is_underscore b) || contains_uu r
  | _ => false
  end.

(** [s.replace('__', '_')]: the occurrences are taken from the left and do
    not overlap. *)
Fixpoint replace_uu (l : list ascii) : list ascii :=
  match l with
  | a :: r =>
      match r with
      | b :: r' =>
          if is_underscore a && is_underscore b
          then underscore :: replace_uu r'
          else a :: replace_uu r
      | [] => [a]
      end
  | [] => []
  end.

(** [while '__' in s: s = s.replace('__', '_')].  Every round shortens the
    string, so [length s] rounds are enough ([collapse_no_uu]). *)
Fixpoint collapse_loop (fuel : nat) (l : list ascii) : list ascii :=
  match fuel with
  | O => l
  | S fuel' =>
      if contains_uu l then collapse_loop fuel' (replace_uu l) else l
  end.
Definition collapse (l : list ascii) : list ascii :=
  collapse_loop (length l) l.

(** [while s.startswith('_'): s = s[1:]] *)
Fixpoint lstrip_underscores (l : list ascii) : list ascii :=
  match l with
  | c :: r => if is_underscore c then lstrip_underscores r else l
  | [] => []
  end.

(** [s.endswith('_')] and [s[:-1]] *)
Definition endswith_underscore (l : list ascii) : bool :=
  match last l with
  | Some c => is_underscore c
  | None => false
  end.

(** [while s.endswith('_'): s = s[:-1]] *)
Fixpoint rstrip_loop (fuel : nat) (l : list ascii) : list ascii :=
  match fuel with
  | O => l
  | S fuel' =>
      if endswith_underscore l then rstrip_loop fuel' (removelast l) else l
  end.
Definition rstrip_underscores (l : list ascii) : list ascii :=
  rstrip_loop (length l) l.

(** [s.title()]: a cased character is upper-cased when the character before
    it is not cased, lower-cased otherwise. *)
Fixpoint title_go (previous_is_cased : bool) (l : list ascii) : list ascii :=
  match l with
  | c :: r =>
      (if previous_is_cased then lower_char c else upper_char c)
        :: title_go (isupper c || islower c) r
  | [] => []
  end.
Definition title (l : list ascii) : list ascii := title_go false l.

End PyStr.

(** ** NameRegistry: the normalisation of [create_name] (lines 93-104) *)

Definition view_fallback : list ascii := PyStr.chars "view".

Definition normalize_chars (name : list ascii) : list ascii :=
  let view_name := PyStr.lower (PyStr.replace_char PyStr.space PyStr.underscore name) in
  let view_name :=
    filter (fun c => PyStr.isalnum c || PyStr.is_underscore c = true) view_name in
  let view_name := PyStr.collapse view_name in
  let view_name := PyStr.lstrip_underscores view_name in
  let view_name := PyStr.rstrip_underscores view_name in
  let view_name := if bool_decide (view_name = []) then view_fallback else view_name in
  match view_name with
  | c :: _ => if PyStr.isdigit c then PyStr.underscore :: view_name else view_name
  | [] => view_name
  end.

Definition normalize_name (name : string) : string :=
  PyStr.str (normalize_chars (PyStr.chars name)).


(** The characters of a normalised name. *)
Definition name_char (c : ascii) : bool :=
  PyStr.isdigit c || PyStr.islower c || PyStr.is_underscore c.




(** ** Numbers

    The arithmetic the generators use on the numbers of the Figma document:
    the integer literals, [-], [+], [*], [x ** 2], [x ** .5] and [int(x)].
    [num_int] is [None] where Python's [int] raises (a NaN or an infinity). *)

Class Number (num : Type) := {
  num_of_Z : Z -> num;
  num_add : num -> num -> num;
  num_sub : num -> num -> num;
  num_mul : num -> num -> num;
  num_pow2 : num -> num;
  num_pow_half : num -> num;
  num_int : num -> option Z
}.

(** Truncation of a binary64 towards zero. *)
Definition float_int (f : float) : option Z :=
  match Prim2SF f with
  | S754_zero _ => Some 0%Z
  | S754_infinity _ | S754_nan => None
  | S754_finite s m e =>
      let v := (if (0 <=? e)%Z then Z.pos m * 2 ^ e else Z.pos m / 2 ^ (- e))%Z in
      Some (if s then (- v)%Z else v)
  end.

(** An integer as a binary64 (exact below 2^53). *)
Definition float_of_Z (z : Z) : float :=
  if (z <? 0)%Z
  then PrimFloat.opp (PrimFloat.of_uint63 (Uint63.of_Z (- z)))
  else PrimFloat.of_uint63 (Uint63.of_Z z).

(** Python's [float]: binary64, with [x ** 2] as the rounded square and
    [x ** .5] as the rounded square root. *)
#[global] Instance float_Number : Number float := {|
  num_of_Z := float_of_Z;
  num_add := PrimFloat.add;
  num_sub := PrimFloat.sub;
  num_mul := PrimFloat.mul;
  num_pow2 := fun x => PrimFloat.mul x x;
  num_pow_half := PrimFloat.sqrt;
  num_int := float_int
|}.

(** ** Exceptions *)

Inductive exn : Type :=
  | KeyError (key : string)
  | IndexError
  | ValueError
  | AttributeError (attribute : string)
  | Exception (message : string)
  | OutOfFuel       (* a loop of the model ran out of fuel *)
  | Dangling.       (* an address that is not in the heap *)

(** [l[i]] with Python's negative indices. *)
Definition py_index {A : Type} (l : list A) (i : Z) : option A :=
  let n := Z.of_nat (length l) in
  let j := (if i <? 0 then i + n else i)%Z in
  if ((j <? 0) || (n <=? j))%Z then None else l !! Z.to_nat j.

(** [zip(a, b)] *)
Fixpoint py_zip {A B : Type} (a : list A) (b : list B) : list (A * B) :=
  match a, b with
  | x :: a', y :: b' => (x, y) :: py_zip a' b'
  | _, _ => []
  end.

Definition dquote : string := String "034"%char "".

(** The address of a generator object in the heap. *)
Abbreviation ref := nat (only parsing).

Section Generators.

Context {num : Type} `{!Number num}.

(** ** The document tree (read-only input) *)

Record BoundingBox : Type := {
  bb_x : num; bb_y : num; bb_width : num; bb_height : num }.

Record Color : Type := {
  color_r : num; color_g : num; color_b : num; color_a : option num }.

Record Point : Type := { point_x : num; point_y : num }.

Record GradientStop : Type := { stop_position : num; stop_color : Color }.

(** A fill or a stroke.  [graphic_type] is ['type']; the keys read with
    [.get] or present for some kinds only are options. *)
Record Graphic : Type := {
  graphic_type : string;
  graphic_opacity : option num;
  graphic_color : option Color;
  imageRef : option string;
  gradientHandlePositions : option (list Point);
  gradientStops : option (list GradientStop) }.

Record Geometry : Type := { path : string }.

Record FigmaNode : Type := {
  node_id : string;
  node_name : string;
  absoluteBoundingBox : option BoundingBox;
  strokeWeight : option num;
  fillGeometry : option (list Geometry);
  fills : option (list Graphic);
  strokeGeometry : option (list Geometry);
  strokes : option (list Graphic) }.

(** ** Generator objects *)

Record DesignGenerator : Type := {
  figma_node : FigmaNode;
  parent : option ref;
  children : list ref;
  q_widget_name : string;
  short_class_name : string;
  handler_class_path : string;
  controller_class_path : string;
  strings_class_path : string;
  config_class_path : string }.

(** ** The vector markup, one value per line of [generate_path]: the values
    the f-strings interpolate, before they are printed. *)

Definition rgb : Type := (Z * Z * Z)%type.

Inductive SvgFill : Type :=
  | FillColor (color : rgb)
  | FillGradient (id : string).

Inductive SvgLine : Type :=
  | SvgPath (fill : SvgFill) (stroke_width opacity : num) (d : string)
  | SvgImage (width height : num) (href id : string) (opacity : num)
  | SvgLinearGradient (id : string) (x1 y1 x2 y2 : num)
  | SvgRadialGradient (id : string) (cx cy r : num)
  | SvgStop (offset : num) (color : rgb) (stop_opacity : num)
  | SvgLinearGradientEnd
  | SvgRadialGradientEnd.

(** ** The state of one process *)

Record State : Type := {
  used_names : gset string;        (* DesignGenerator.used_names *)
  graphic_counter : nat;           (* SvgGenerator.graphic_counter *)
  svg_counter : nat;               (* VectorGenerator.svg_counter *)
  windows : gmap string string;    (* FrameGenerator.windows *)
  heap : list DesignGenerator;     (* the generator objects *)
  warnings : list string;          (* logging.warning *)
  svg_files : list (string * list SvgLine); (* writes under config.svg_directory *)
  config_scale : num               (* config.scale *)
}.

Definition initial_state (scale : num) : State := {|
  used_names := ∅; graphic_counter := 0; svg_counter := 0; windows := ∅;
  heap := []; warnings := []; svg_files := []; config_scale := scale |}.

Definition set_used_names (f : gset string -> gset string) (st : State) : State :=
  {| used_names := f (used_names st); graphic_counter := graphic_counter st;
     svg_counter := svg_counter st; windows := windows st; heap := heap st;
     warnings := warnings st; svg_files := svg_files st;
     config_scale := config_scale st |}.
Definition set_graphic_counter (f : nat -> nat) (st : State) : State :=
  {| used_names := used_names st; graphic_counter := f (graphic_counter st);
     svg_counter := svg_counter st; windows := windows st; heap := heap st;
     warnings := warnings st; svg_files := svg_files st;
     config_scale := config_scale st |}.
Definition set_svg_counter (f : nat -> nat) (st : State) : State :=
  {| used_names := used_names st; graphic_counter := graphic_counter st;
     svg_counter := f (svg_counter st); windows := windows st; heap := heap st;
     warnings := warnings st; svg_files := svg_files st;
     config_scale := config_scale st |}.
Definition set_windows (f : gmap string string -> gmap string string)
    (st : State) : State :=
  {| used_names := used_names st; graphic_counter := graphic_counter st;
     svg_counter := svg_counter st; windows := f (windows st); heap := heap st;
     warnings := warnings st; svg_files := svg_files st;
     config_scale := config_scale st |}.
Definition set_heap (f : list DesignGenerator -> list DesignGenerator)
    (st : State) : State :=
  {| used_names := used_names st; graphic_counter := graphic_counter st;
     svg_counter := svg_counter st; windows := windows st; heap := f (heap st);
     warnings := warnings st; svg_files := svg_files st;
     config_scale := config_scale st |}.
Definition set_warnings (f : list string -> list string) (st : State) : State :=
  {| used_names := used_names st; graphic_counter := graphic_counter st;
     svg_counter := svg_counter st; windows := windows st; heap := heap st;
     warnings := f (warnings st); svg_files := svg_files st;
     config_scale := config_scale st |}.
Definition set_svg_files
    (f : list (string * list SvgLine) -> list (string * list SvgLine))
    (st : State) : State :=
  {| used_names := used_names st; graphic_counter := graphic_counter st;
     svg_counter := svg_counter st; windows := windows st; heap := heap st;
     warnings := warnings st; svg_files := f (svg_files st);
     config_scale := config_scale st |}.

(** ** Computations: the state is threaded through and survives an
    exception, as the class attributes do. *)

Definition M (A : Type) : Type := State -> State * (exn + A).

Definition ret {A : Type} (a : A) : M A := fun st => (st, inr a).
Definition raise {A : Type} (e : exn) : M A := fun st => (st, inl e).
Definition bind {A B : Type} (m : M A) (k : A -> M B) : M B :=
  fun st =>
    match m st with
    | (st', inr a) => k a st'
    | (st', inl e) => (st', inl e)
    end.
Definition get : M State := fun st => (st, inr st).
Definition modify (f : State -> State) : M unit := fun st => (f st, inr tt).

(** [d[key]] *)
Definition require {A : Type} (key : string) (o : option A) : M A :=
  match o with
  | Some a => ret a
  | None => raise (KeyError key)
  end.
(** [l[i]] *)
Definition index {A : Type} (l : list A) (i : Z) : M A :=
  match py_index l i with
  | Some a => ret a
  | None => raise IndexError
  end.
(** [int(x)] *)
Definition to_int (x : num) : M Z :=
  match num_int x with
  | Some z => ret z
  | None => raise ValueError
  end.

End Generators.

Arguments BoundingBox : clear implicits.
Arguments Color : clear implicits.
Arguments Point : clear implicits.
Arguments GradientStop : clear implicits.
Arguments Graphic : clear implicits.
Arguments FigmaNode : clear implicits.
Arguments DesignGenerator : clear implicits.
Arguments SvgLine : clear implicits.
Arguments State : clear implicits.
Arguments M : clear implicits.

Notation "'let*' x ':=' m 'in' k" := (bind m (fun x => k))
  (at level 10, x name, m at level 100, k at level 200, only parsing).
Notation "'let*' ' x ':=' m 'in' k" := (bind m (fun x => k))
  (at level 10, x strict pattern, m at level 100, k at level 200, only parsing).

(** Modelled from the spec: [VisibilityGenerator]
    (generator/properties/visibility_generator.py) is built from the generator
    whose subtree it shows or hides. *)
Record VisibilityGenerator : Type := { visibility_target : ref }.

Record CustomButtonGenerator : Type := {
  button_self : ref;
  hide_show_mouse_over_generator : VisibilityGenerator;
  hide_show_pressed_generator : VisibilityGenerator;
  hide_show_disabled_generator : VisibilityGenerator }.

Record FrameGenerator : Type := {
  frame_self : ref;
  window_class_name : string }.

Section Operations.

Context {num : Type} `{!Number num}.

#[local] Abbreviation M := (M num).
#[local] Abbreviation State := (State num).
#[local] Abbreviation FigmaNode := (FigmaNode num).
#[local] Abbreviation DesignGenerator := (DesignGenerator num).
#[local] Abbreviation Graphic := (Graphic num).
#[local] Abbreviation SvgLine := (SvgLine num).

(** ** NameRegistry: [DesignGenerator.create_name] *)

(** [f'{view_name}_{i}'] *)
Definition suffixed (view_name : string) (i : nat) : string :=
  view_name +:+ "_" +:+ pretty i.

(** Lines 105-109: [while new_name in cls.used_names: ...].  The loop ends
    within [size used + 1] tests ([find_unused_terminates]). *)
Fixpoint find_unused (fuel : nat) (used : gset string)
    (view_name new_name : string) (i : nat) : option string :=
  match fuel with
  | O => None
  | S fuel' =>
      if bool_decide (new_name ∈ used)
      then find_unused fuel' used view_name (suffixed view_name i) (S i)
      else Some new_name
  end.

Definition create_name (figma_node : FigmaNode) : M string :=
  let view_name := normalize_name (node_name figma_node) in
  let* st := get in
  match find_unused (S (size (used_names st))) (used_names st)
          view_name view_name 0 with
  | Some new_name =>
      let* _ := modify (set_used_names (fun used => used ∪ {[new_name]})) in
      ret new_name
  | None => raise OutOfFuel
  end.


(** The names that the loop of lines 105-109 tests, in order: the base, then
    the base with the suffixes [_0], [_1], ... *)
Definition candidate (view_name : string) (k : nat) : string :=
  match k with
  | O => view_name
  | S i => suffixed view_name i
  end.

(** ** Generator objects *)

Definition deref (r : ref) : M DesignGenerator :=
  let* st := get in
  match heap st !! r with
  | Some obj => ret obj
  | None => raise Dangling
  end.

Definition alloc (obj : DesignGenerator) : M ref :=
  let* st := get in
  let* _ := modify (set_heap (fun h => h ++ [obj])) in
  ret (length (heap st)).

Definition with_children (f : list ref -> list ref) (obj : DesignGenerator)
    : DesignGenerator :=
  {| figma_node := figma_node obj; parent := parent obj;
     children := f (children obj); q_widget_name := q_widget_name obj;
     short_class_name := short_class_name obj;
     handler_class_path := handler_class_path obj;
     controller_class_path := controller_class_path obj;
     strings_class_path := strings_class_path obj;
     config_class_path := config_class_path obj |}.

Definition with_class_paths (handler controller strings config : string)
    (obj : DesignGenerator) : DesignGenerator :=
  {| figma_node := figma_node obj; parent := parent obj;
     children := children obj; q_widget_name := q_widget_name obj;
     short_class_name := short_class_name obj;
     handler_class_path := handler;
     controller_class_path := controller;
     strings_class_path := strings;
     config_class_path := config |}.

(** [q_widget_name.replace('_', ' ').title().replace(' ', '')] *)
Definition make_short_class_name (q_widget_name : string) : string :=
  PyStr.str
    (filter (fun c => c ≠ PyStr.space)
       (PyStr.title
          (PyStr.replace_char PyStr.underscore PyStr.space
             (PyStr.chars q_widget_name)))).

(** [DesignGenerator.__init__] *)
Definition DesignGenerator_init (figma_node : FigmaNode) (parent : option ref)
    : M ref :=
  let* q_widget_name := create_name figma_node in
  let short_class_name := make_short_class_name q_widget_name in
  match parent with
  | Some p =>
      let* parent_obj := deref p in
      let* self :=
        alloc {| figma_node := figma_node; parent := Some p; children := [];
                 q_widget_name := q_widget_name;
                 short_class_name := short_class_name;
                 handler_class_path := handler_class_path parent_obj;
                 controller_class_path := controller_class_path parent_obj;
                 strings_class_path := strings_class_path parent_obj;
                 config_class_path := config_class_path parent_obj |} in
      let* _ :=
        modify (set_heap (alter (with_children (fun c => c ++ [self])) p)) in
      ret self
  | None =>
      alloc {| figma_node := figma_node; parent := None; children := [];
               q_widget_name := q_widget_name;
               short_class_name := short_class_name;
               handler_class_path := ""; controller_class_path := "";
               strings_class_path := ""; config_class_path := "" |}
  end.


(** ** BoundsTransform: the property [DesignGenerator.bounds] *)

Definition zero : num := num_of_Z 0.
Definition one : num := num_of_Z 1.

Definition zero_box : BoundingBox num :=
  {| bb_x := zero; bb_y := zero; bb_width := zero; bb_height := zero |}.

Definition bounds (self : ref) : M (num * num * num * num) :=
  let* obj := deref self in
  let* '(parent_start_x, parent_start_y) :=
    match parent obj with
    | Some p =>
        let* parent_obj := deref p in
        let parent_bounds :=
          default zero_box (absoluteBoundingBox (figma_node parent_obj)) in
        ret (bb_x parent_bounds, bb_y parent_bounds)
    | None => ret (zero, zero)
    end in
  let box := default zero_box (absoluteBoundingBox (figma_node obj)) in
  let x := num_sub (bb_x box) parent_start_x in
  let y := num_sub (bb_y box) parent_start_y in
  let width := bb_width box in
  let height := bb_height box in
  let* st := get in
  let scale := config_scale st in
  ret (num_mul x scale, num_mul y scale,
       num_mul width scale, num_mul height scale).

(** The transform as section 4.2 of the specification words it:
    [relative_bounds(childAbs, parentAbs, scale)], of which only the origin of
    [parentAbs] is used. *)
Definition relative_bounds (child_abs : BoundingBox num)
    (parent_x parent_y scale : num) : num * num * num * num :=
  (num_mul (num_sub (bb_x child_abs) parent_x) scale,
   num_mul (num_sub (bb_y child_abs) parent_y) scale,
   num_mul (bb_width child_abs) scale,
   num_mul (bb_height child_abs) scale).

(** The property [DesignGenerator.pyqt_bounds] *)
Definition pyqt_bounds (self : ref) : M string :=
  let* '(x, y, width, height) := bounds self in
  let* x := to_int x in
  let* y := to_int y in
  let* width := to_int width in
  let* height := to_int height in
  ret ("QRect(" +:+ pretty x +:+ ", " +:+ pretty y +:+ ", "
         +:+ pretty width +:+ ", " +:+ pretty height +:+ ")").


(** ** VectorPathEmitter: [SvgGenerator] *)

(** [map(lambda x: int(x * 255), color)], the arguments of
    ['#{:02x}{:02x}{:02x}'.format] *)
Definition color_channels (color : Color num) : M rgb :=
  let* r := to_int (num_mul (color_r color) (num_of_Z 255)) in
  let* g := to_int (num_mul (color_g color) (num_of_Z 255)) in
  let* b := to_int (num_mul (color_b color) (num_of_Z 255)) in
  ret (r, g, b).

(** [for stop in stops: ...] (lines 80-85 and 95-100) *)
Fixpoint gradient_stops (opacity : num) (stops : list (GradientStop num))
    : M (list SvgLine) :=
  match stops with
  | [] => ret []
  | stop :: rest =>
      let color := stop_color stop in
      let stop_opacity := num_mul opacity (default one (color_a color)) in
      let* hex := color_channels color in
      let* lines := gradient_stops opacity rest in
      ret (SvgStop (stop_position stop) hex stop_opacity :: lines)
  end.

(** The Euclidean distance between two points, as the specification names
    the radius of a radial gradient. *)
Definition euclidean_distance (p q : Point num) : num :=
  num_pow_half
    (num_add (num_pow2 (num_sub (point_x p) (point_x q)))
             (num_pow2 (num_sub (point_y p) (point_y q)))).

(** [SvgGenerator.generate_path], run to exhaustion as the [for] loops of
    [create_svg_file] do. *)
Definition generate_path (figma_node : FigmaNode) (path_data : string)
    (graphic : Graphic) : M (list SvgLine) :=
  let* _ := modify (set_graphic_counter S) in
  let stroke_width := default zero (strokeWeight figma_node) in
  let opacity := default one (graphic_opacity graphic) in
  if bool_decide (graphic_type graphic = "SOLID") then
    let* color := require "color" (graphic_color graphic) in
    let opacity := num_mul opacity (default zero (color_a color)) in
    let* hex := color_channels color in
    ret [SvgPath (FillColor hex) stroke_width opacity path_data]
  else if bool_decide (graphic_type graphic = "IMAGE") then
    let* image_ref := require "imageRef" (imageRef graphic) in
    let image := "../images/" +:+ image_ref +:+ ".png" in
    let* box :=
      require "absoluteBoundingBox" (absoluteBoundingBox figma_node) in
    let* st := get in
    let img_ref := "img" +:+ pretty (graphic_counter st) in
    ret [SvgImage (bb_width box) (bb_height box) image img_ref opacity]
  else if bool_decide (graphic_type graphic = "GRADIENT_LINEAR") then
    let* gradient :=
      require "gradientHandlePositions" (gradientHandlePositions graphic) in
    let* p0 := index gradient 0 in
    let* p1 := index gradient 1 in
    let* stops := require "gradientStops" (gradientStops graphic) in
    let* st := get in
    let id := "gradient" +:+ pretty (graphic_counter st) in
    let* stop_lines := gradient_stops opacity stops in
    ret (SvgLinearGradient id (point_x p0) (point_y p0) (point_x p1) (point_y p1)
           :: stop_lines
           ++ [SvgLinearGradientEnd;
               SvgPath (FillGradient id) stroke_width opacity path_data])
  else if bool_decide (graphic_type graphic = "GRADIENT_RADIAL") then
    let* gradient :=
      require "gradientHandlePositions" (gradientHandlePositions graphic) in
    let* p0 := index gradient 0 in
    let* p1 := index gradient (-1) in
    let radius :=
      num_pow_half
        (num_add (num_pow2 (num_sub (point_x p0) (point_x p1)))
                 (num_pow2 (num_sub (point_y p0) (point_y p1)))) in
    let* stops := require "gradientStops" (gradientStops graphic) in
    let* st := get in
    let id := "gradient" +:+ pretty (graphic_counter st) in
    let* stop_lines := gradient_stops opacity stops in
    ret (SvgRadialGradient id (point_x p0) (point_y p0) radius
           :: stop_lines
           ++ [SvgRadialGradientEnd;
               SvgPath (FillGradient id) stroke_width opacity path_data])
  else
    let* _ :=
      modify (set_warnings (fun w =>
        w ++ ["Unknown graphic type : " +:+ graphic_type graphic])) in
    ret [].

(** One [for] loop of [create_svg_file] (lines 29-32 and 34-37) *)
Fixpoint generate_paths (figma_node : FigmaNode)
    (pairs : list (Geometry * Graphic)) : M (list SvgLine) :=
  match pairs with
  | [] => ret []
  | (geometry, graphic) :: rest =>
      let* lines := generate_path figma_node (path geometry) graphic in
      let* more := generate_paths figma_node rest in
      ret (lines ++ more)
  end.

(** [SvgGenerator.create_svg_file] *)
Definition create_svg_file (figma_node : FigmaNode) (filename : string)
    : M unit :=
  let* box :=
    require "absoluteBoundingBox" (absoluteBoundingBox figma_node) in
  let* _ := to_int (bb_width box) in
  let* _ := to_int (bb_height box) in
  let* fill_lines :=
    generate_paths figma_node
      (py_zip (default [] (fillGeometry figma_node))
              (default [] (fills figma_node))) in
  let* stroke_lines :=
    generate_paths figma_node
      (py_zip (default [] (strokeGeometry figma_node))
              (default [] (strokes figma_node))) in
  modify (set_svg_files (fun files =>
    files ++ [(filename, fill_lines ++ stroke_lines)])).


(** What the last case of [generate_path] (lines 103-105) does to the state:
    the path is counted and a warning is logged. *)
Definition unsupported_graphic (graphic : Graphic) (st : State) : State :=
  set_warnings
    (fun w => w ++ ["Unknown graphic type : " +:+ graphic_type graphic])
    (set_graphic_counter S st).

(** [create_svg_file] as the markup of a given list of (geometry, graphic)
    pairs, in order. *)
Definition create_svg_file_of_pairs (figma_node : FigmaNode) (filename : string)
    (pairs : list (Geometry * Graphic)) : M unit :=
  let* box :=
    require "absoluteBoundingBox" (absoluteBoundingBox figma_node) in
  let* _ := to_int (bb_width box) in
  let* _ := to_int (bb_height box) in
  let* lines := generate_paths figma_node pairs in
  modify (set_svg_files (fun files => files ++ [(filename, lines)])).

(** ** [VectorGenerator.generate_design] *)

Definition svg_filename_of (n : nat) : string :=
  "file" +:+ pretty n +:+ ".svg".

Definition VectorGenerator_generate_design (self : ref) : M (list string) :=
  let* obj := deref self in
  let* _ := modify (set_svg_counter S) in
  let* st := get in
  let svg_filename := svg_filename_of (svg_counter st) in
  let pyqt_svg_path := "svg/" +:+ svg_filename in
  let* _ := create_svg_file (figma_node obj) svg_filename in
  let svg_widget_name := "q_svg_widget_" +:+ q_widget_name obj in
  let* box :=
    require "absoluteBoundingBox" (absoluteBoundingBox (figma_node obj)) in
  let* parent_obj :=
    match parent obj with
    | Some p => deref p
    | None => raise (AttributeError "q_widget_name")
    end in
  let* rect := pyqt_bounds self in
  let* width := to_int (num_mul (bb_width box) (config_scale st)) in
  let* height := to_int (num_mul (bb_height box) (config_scale st)) in
  ret [ "";
        "self." +:+ q_widget_name obj +:+ " = QLabel(self."
          +:+ q_widget_name parent_obj +:+ ")";
        "self." +:+ q_widget_name obj +:+ ".setGeometry(" +:+ rect +:+ ")";
        "self." +:+ svg_widget_name +:+ " = QSvgWidget(self."
          +:+ q_widget_name obj +:+ ")";
        "self." +:+ svg_widget_name +:+ ".setGeometry(QRect(0, 0, "
          +:+ pretty width +:+ ", " +:+ pretty height +:+ "))";
        "self." +:+ svg_widget_name +:+ ".load(" +:+ dquote
          +:+ pyqt_svg_path +:+ dquote +:+ ")" ].

(** ** [FrameGenerator] *)

(** [FrameGenerator.__init__] *)
Definition FrameGenerator_init (figma_node : FigmaNode) (parent : option ref)
    : M FrameGenerator :=
  let* self := DesignGenerator_init figma_node parent in
  let* obj := deref self in
  let window_class_name := "QWindow" +:+ short_class_name obj in
  let* _ :=
    modify (set_windows (fun w => <[node_id figma_node := window_class_name]> w)) in
  ret {| frame_self := self; window_class_name := window_class_name |}.

(** Lines 37-40 of [FrameGenerator.generate_design] *)
Definition frame_class_paths (obj : DesignGenerator) : DesignGenerator :=
  with_class_paths
    (handler_class_path obj +:+ "." +:+ short_class_name obj +:+ "Handler")
    (controller_class_path obj +:+ "." +:+ short_class_name obj +:+ "Controller")
    (strings_class_path obj +:+ "." +:+ short_class_name obj +:+ "Strings")
    (config_class_path obj +:+ "." +:+ short_class_name obj +:+ "Config")
    obj.

(** Modelled from the spec: [FactoryGenerator] (generator/design/core/
    factory_generator.py) is a generator variant that does not override the
    namespace paths; its constructor is the one it inherits,
    [DesignGenerator.__init__]. *)
Definition FactoryGenerator_init (figma_node : FigmaNode) (parent : ref)
    : M ref :=
  DesignGenerator_init figma_node (Some parent).

(** [FrameGenerator.generate_design], lines 35-58, up to the construction
    [FactoryGenerator(self.figma_node, self)], whose address is returned.
    The text that the method yields is printed by [indent],
    [generate_handler_call] and [FactoryGenerator.generate_design]. *)
Definition FrameGenerator_generate_design (frame : FrameGenerator) : M ref :=
  let self := frame_self frame in
  let* obj := deref self in
  let* box :=
    require "absoluteBoundingBox" (absoluteBoundingBox (figma_node obj)) in
  let* _ := modify (set_heap (alter frame_class_paths self)) in
  FactoryGenerator_init (figma_node obj) self.

(** ** [CustomButtonGenerator.__init__] *)

Definition CustomButtonGenerator_init (figma_node : FigmaNode)
    (parent : option ref) (group_generator : ref) : M CustomButtonGenerator :=
  let* self := DesignGenerator_init figma_node parent in
  let* obj := deref self in
  let* group := deref group_generator in
  if length (children group) <? 4 then
    raise (Exception ("Custom button " +:+ q_widget_name obj
                        +:+ " should have at least 4 children"))
  else
    let* mouse_over := index (children group) (-1) in
    let* pressed := index (children group) (-2) in
    let* disabled := index (children group) (-3) in
    ret {| button_self := self;
           hide_show_mouse_over_generator := {| visibility_target := mouse_over |};
           hide_show_pressed_generator := {| visibility_target := pressed |};
           hide_show_disabled_generator := {| visibility_target := disabled |} |}.

(** ** One run: the calls that construct generators and emit their design *)

Inductive step : State -> State -> Prop :=
  | step_DesignGenerator_init figma_node parent st :
      step st (DesignGenerator_init figma_node parent st).1
  | step_FrameGenerator_init figma_node parent st :
      step st (FrameGenerator_init figma_node parent st).1
  | step_CustomButtonGenerator_init figma_node parent group st :
      step st (CustomButtonGenerator_init figma_node parent group st).1
  | step_FrameGenerator_generate_design frame st :
      step st (FrameGenerator_generate_design frame st).1
  | step_VectorGenerator_generate_design self st :
      step st (VectorGenerator_generate_design self st).1.

Inductive reachable (scale : num) : State -> Prop :=
  | reachable_initial : reachable scale (initial_state scale)
  | reachable_step st st' :
      reachable scale st -> step st st' -> reachable scale st'.

(** The ids that the markup defines: [f'gradient{n}'] and [f'img{n}']. *)
Inductive IdTag : Type :=
  | GradientId (n : nat)
  | ImageId (n : nat).

Definition tag_number (t : IdTag) : nat :=
  match t with GradientId n | ImageId n => n end.

Definition render_id (t : IdTag) : string :=
  match t with
  | GradientId n => "gradient" +:+ pretty n
  | ImageId n => "img" +:+ pretty n
  end.

(** The names of the files written, and the ids that their markup defines. *)
Definition written_filenames (st : State) : list string := (svg_files st).*1.

Definition line_ids (line : SvgLine) : list string :=
  match line with
  | SvgImage _ _ _ id _ => [id]
  | SvgLinearGradient id _ _ _ _ => [id]
  | SvgRadialGradient id _ _ _ => [id]
  | _ => []
  end.

Definition written_ids (st : State) : list string :=
  svg_files st ≫= (fun file => file.2 ≫= line_ids).



(** A computation that neither reads nor writes the state, and one whose
    markup, ids apart, does not depend on the state. *)
Definition stateless {A : Type} (m : M A) : Prop :=
  forall st st', m st' = (st', (m st).2).

(** The state that the emitter owns: the two counters and the files. *)
Definition emitter_state (st : State) : nat * nat * list (string * list SvgLine) :=
  (graphic_counter st, svg_counter st, svg_files st).

(** A computation that leaves the state alone, and one that leaves the
    emitter's part of it alone. *)
Definition pure {A : Type} (m : M A) : Prop := forall st, (m st).1 = st.
Definition keeps_emitter_state {A : Type} (m : M A) : Prop :=
  forall st, emitter_state (m st).1 = emitter_state st.

(** The files written are numbered apart, below the file counter, and the ids
    that their markup defines are numbered apart, below the path counter. *)
Definition counters_invariant (st : State) : Prop :=
  exists (ns : list nat) (tags : list IdTag),
    written_filenames st = svg_filename_of <$> ns
    /\ NoDup ns
    /\ Forall (fun n => n <= svg_counter st) ns
    /\ written_ids st = render_id <$> tags
    /\ NoDup (tag_number <$> tags)
    /\ Forall (fun t => tag_number t <= graphic_counter st) tags.

(** C7 as the specification states it: one counter numbers both the files
    and the ids, so that in every state of a run the file counter is the path
    counter. *)
Definition single_shared_counter : Prop :=
  forall scale st, reachable scale st -> svg_counter st = graphic_counter st.

End Operations.

(** ** Example documents, with binary64 numbers *)

Module Examples.

Local Open Scope float_scope.
Set Warnings "-inexact-float".

Definition box (x y width height : float) : BoundingBox float :=
  {| bb_x := x; bb_y := y; bb_width := width; bb_height := height |}.

Definition plain_node (name : string) (b : option (BoundingBox float))
    : FigmaNode float :=
  {| node_id := "1:2"; node_name := name; absoluteBoundingBox := b;
     strokeWeight := None; fillGeometry := None; fills := None;
     strokeGeometry := None; strokes := None |}.

Definition generator (node : FigmaNode float) (parent : option ref)
    (children : list ref) (name : string) : DesignGenerator float :=
  {| figma_node := node; parent := parent; children := children;
     q_widget_name := name; short_class_name := make_short_class_name name;
     handler_class_path := ""; controller_class_path := "";
     strings_class_path := ""; config_class_path := "" |}.


(** A parent at (100, 50) and its child at (110, 60), 10 by 20, scale 2. *)
Definition bounds_state : State float :=
  set_heap (fun _ =>
    [generator (plain_node "Parent" (Some (box 100 50 300 300))) None [1%nat] "parent";
     generator (plain_node "Child" (Some (box 110 60 10 20))) (Some 0%nat) [] "child"])
    (initial_state 2).

Definition red : Color float :=
  {| color_r := 1; color_g := 0; color_b := 0; color_a := None |}.

Definition solid (alpha opacity : option float) : Graphic float :=
  {| graphic_type := "SOLID"; graphic_opacity := opacity;
     graphic_color :=
       Some {| color_r := 1; color_g := 0; color_b := 0; color_a := alpha |};
     imageRef := None; gradientHandlePositions := None; gradientStops := None |}.

Definition gradient (kind : string) (handles : list (Point float))
    : Graphic float :=
  {| graphic_type := kind; graphic_opacity := None; graphic_color := None;
     imageRef := None; gradientHandlePositions := Some handles;
     gradientStops := Some [ {| stop_position := 0; stop_color := red |} ] |}.

(** A radial gradient with its handles at (0, 0) and (3, 4). *)
Definition radial : Graphic float :=
  gradient "GRADIENT_RADIAL"
    [ {| point_x := 0; point_y := 0 |}; {| point_x := 3; point_y := 4 |} ].

Definition linear : Graphic float :=
  gradient "GRADIENT_LINEAR"
    [ {| point_x := 0; point_y := 0 |}; {| point_x := 1; point_y := 0 |} ].


(** A vector node with three fill geometries, two fills, and one stroke but
    no stroke geometry. *)
Definition vector_node : FigmaNode float :=
  {| node_id := "1:3"; node_name := "Shape";
     absoluteBoundingBox := Some (box 110 60 10 20); strokeWeight := None;
     fillGeometry := Some [ {| path := "M0 0" |}; {| path := "M1 1" |};
                            {| path := "M2 2" |} ];
     fills := Some [linear; solid None None];
     strokeGeometry := None; strokes := Some [radial] |}.

(** A run: a parent, a vector node under it, and the design of the vector
    node. *)
Definition after_parent : State float :=
  (DesignGenerator_init (plain_node "Parent" (Some (box 100 50 300 300))) None
     (initial_state 1)).1.
Definition after_vector : State float :=
  (DesignGenerator_init vector_node (Some 0%nat) after_parent).1.
Definition after_design : State float :=
  (VectorGenerator_generate_design 1%nat after_vector).1.

(** A backing group (at address 0) with [n] children, at the addresses
    1 to [n]. *)
Definition group_state (n : nat) : State float :=
  set_heap (fun _ =>
    generator (plain_node "Group" None) None (seq 1 n) "group"
      :: ((fun i => generator (plain_node "Layer" None) (Some 0%nat) []
                      ("layer_" +:+ pretty i)) <$> seq 1 n))
    (initial_state 1).

Definition button_node : FigmaNode float := plain_node "Button" None.

Definition frame : FrameGenerator :=
  {| frame_self := 0%nat; window_class_name := "QWindowMainWindow" |}.

End Examples.

(** * Properties *)

(** ** Characters *)

Ltac each_char c :=
  destruct c as [[] [] [] [] [] [] [] []]; vm_compute; try reflexivity;
  try discriminate; try tauto.






Lemma digit_name_char c : PyStr.isdigit c = true -> name_char c = true.
Proof. each_char c. Qed.


(** ** The string methods on names *)





(** *** [replace('__', '_')] and its loop *)













(** *** Stripping underscores *)










(** ** Normalisation *)








Lemma str_chars s : PyStr.str (PyStr.chars s) = s.
Proof. apply String.string_of_list_ascii_of_string. Qed.


(** ** NameRegistry *)

Section NameRegistry.

Context {num : Type} `{!Number num}.

Lemma string_app_length (s1 s2 : string) :
  String.length (s1 +:+ s2) = String.length s1 + String.length s2.
Proof. induction s1 as [|a s1 IH]; simpl; [done|]. by rewrite IH. Qed.

Lemma suffixed_neq view_name i : suffixed view_name i <> view_name.
Proof.
  unfold suffixed. intros H. apply (f_equal String.length) in H.
  rewrite string_app_length in H. simpl in H. lia.
Qed.

Lemma suffixed_inj view_name i j :
  suffixed view_name i = suffixed view_name j -> i = j.
Proof.
  unfold suffixed. intros H. apply String.app_inj in H.
  apply (String.app_inj "_") in H. by apply (inj pretty) in H.
Qed.

Lemma candidate_inj view_name : Inj (=) (=) (candidate view_name).
Proof.
  intros [|i] [|j] H; simpl in H; [done| | |].
  - symmetry in H. by apply suffixed_neq in H.
  - by apply suffixed_neq in H.
  - f_equal. by apply suffixed_inj in H.
Qed.

(** The loop returns the first candidate that is not in use, when it has the
    fuel to reach it. *)
Lemma find_unused_first (used : gset string) view_name m :
  forall fuel j,
    (forall k, j <= k < j + m -> candidate view_name k ∈ used) ->
    candidate view_name (j + m) ∉ used ->
    m < fuel ->
    find_unused fuel used view_name (candidate view_name j) j
    = Some (candidate view_name (j + m)).
Proof.
  induction m as [|m IH]; intros fuel j Hin Hout Hfuel;
    (destruct fuel as [|fuel]; [lia|]); simpl.
  - rewrite Nat.add_0_r in *. by rewrite bool_decide_eq_false_2.
  - rewrite bool_decide_eq_true_2 by (apply Hin; lia).
    change (suffixed view_name j) with (candidate view_name (S j)).
    rewrite (IH fuel (S j)).
    + f_equal. f_equal. lia.
    + intros k Hk. apply Hin. lia.
    + by replace (S j + m) with (j + S m) by lia.
    + lia.
Qed.

(** Candidates that are all in use are no more than the names in use. *)
Lemma candidates_in_use_bound (used : gset string) view_name n :
  (forall k, k < n -> candidate view_name k ∈ used) -> n <= size used.
Proof.
  intros Hin.
  set (l := candidate view_name <$> seq 0 n).
  assert (NoDup l) as Hnd.
  { apply (@NoDup_fmap_2 _ _ _ (candidate_inj view_name)), NoDup_seq. }
  assert (list_to_set l ⊆ used) as Hsub.
  { intros x Hx. apply elem_of_list_to_set in Hx.
    apply list_elem_of_fmap in Hx as (k & -> & Hk).
    apply elem_of_seq in Hk. apply Hin. lia. }
  apply subseteq_size in Hsub.
  rewrite (size_list_to_set l Hnd) in Hsub.
  unfold l in Hsub. by rewrite length_fmap, length_seq in Hsub.
Qed.

(** Some candidate among the first [size used + 1] is not in use. *)
Lemma first_unused_exists (used : gset string) view_name :
  exists m,
    m <= size used
    /\ (forall k, k < m -> candidate view_name k ∈ used)
    /\ candidate view_name m ∉ used.
Proof.
  assert (forall n,
    (exists m, m <= n /\ (forall k, k < m -> candidate view_name k ∈ used)
               /\ candidate view_name m ∉ used)
    \/ (forall k, k < S n -> candidate view_name k ∈ used)) as H.
  { induction n as [|n [IH|IH]].
    - destruct (decide (candidate view_name 0 ∈ used)) as [Hin|Hout].
      + right. intros k Hk. by replace k with 0 by lia.
      + left. exists 0. repeat split; [lia|intros; lia|done].
    - left. destruct IH as (m & ? & ? & ?). exists m. repeat split; [lia|done..].
    - destruct (decide (candidate view_name (S n) ∈ used)) as [Hin|Hout].
      + right. intros k Hk. destruct (decide (k = S n)) as [->|]; [done|].
        apply IH. lia.
      + left. exists (S n). repeat split; [lia|done..]. }
  destruct (H (size used)) as [(m & ? & ? & ?)|Hall]; [by exists m|].
  apply candidates_in_use_bound in Hall. lia.
Qed.

(** The loop of lines 105-109 ends: the fuel that [create_name] gives it is
    enough, whatever the names in use. *)
Lemma find_unused_terminates (used : gset string) view_name :
  exists m,
    find_unused (S (size used)) used view_name view_name 0
    = Some (candidate view_name m)
    /\ (forall k, k < m -> candidate view_name k ∈ used)
    /\ candidate view_name m ∉ used.
Proof.
  destruct (first_unused_exists used view_name) as (m & Hm & Hin & Hout).
  exists m. split; [|done].
  apply (find_unused_first used view_name m (S (size used)) 0); [|done|lia].
  intros k Hk. apply Hin. lia.
Qed.

(** [create_name] always returns: a name that was not in use, which it
    registers. *)
Lemma create_name_fresh (figma_node : FigmaNode num) (st : State num) :
  exists name,
    create_name figma_node st
    = (set_used_names (fun used => used ∪ {[name]}) st, inr name)
    /\ name ∉ used_names st.
Proof.
  destruct (find_unused_terminates (used_names st)
              (normalize_name (node_name figma_node))) as (m & Hm & _ & Hout).
  exists (candidate (normalize_name (node_name figma_node)) m). split; [|done].
  unfold create_name, bind, get. by rewrite Hm.
Qed.





End NameRegistry.

(** ** Computations *)

Section Computations.

Context {num : Type} `{!Number num}.

Lemma bind_inr {A B : Type} (m : M num A) (k : A -> M num B) st st' a :
  m st = (st', inr a) -> bind m k st = k a st'.
Proof. unfold bind. by intros ->. Qed.

Lemma bind_inl {A B : Type} (m : M num A) (k : A -> M num B) st st' e :
  m st = (st', inl e) -> bind m k st = (st', inl e).
Proof. unfold bind. by intros ->. Qed.

Lemma bind_assoc {A B C : Type} (m : M num A) (k : A -> M num B)
    (h : B -> M num C) st :
  bind (bind m k) h st = bind m (fun a => bind (k a) h) st.
Proof. unfold bind. by destruct (m st) as [st' [e|a]]. Qed.

Lemma bind_cong {A B : Type} (m : M num A) (k k' : A -> M num B) st :
  (forall a st', k a st' = k' a st') -> bind m k st = bind m k' st.
Proof. intros Hk. unfold bind. by destruct (m st) as [st' [e|a]]. Qed.

Lemma bind_get {B : Type} (k : State num -> M num B) st :
  bind get k st = k st st.
Proof. reflexivity. Qed.

Lemma bind_modify {B : Type} (f : State num -> State num) (k : unit -> M num B) st :
  bind (modify f) k st = k tt (f st).
Proof. reflexivity. Qed.

Lemma deref_Some (st : State num) r obj :
  heap st !! r = Some obj -> deref r st = (st, inr obj).
Proof. unfold deref, bind, get. by intros ->. Qed.

Lemma deref_state (st : State num) r : (deref r st).1 = st.
Proof. unfold deref, bind, get. by destruct (heap st !! r). Qed.

End Computations.

(** ** BoundsTransform *)

Section BoundsTransform.

Context {num : Type} `{!Number num}.

(** C2. Bounds transform: [bounds] returns
    [((cx - px) * s, (cy - py) * s, cw * s, ch * s)] for a node with absolute
    box [(cx, cy, cw, ch)] whose parent has its absolute box at [(px, py)],
    and takes [(0, 0)] for the parent origin of a node without a parent. *)
Theorem bounds_relative (st : State num) (self : ref)
    (obj : DesignGenerator num) (box : BoundingBox num) :
  heap st !! self = Some obj ->
  absoluteBoundingBox (figma_node obj) = Some box ->
  (forall p parent_obj parent_box,
      parent obj = Some p ->
      heap st !! p = Some parent_obj ->
      absoluteBoundingBox (figma_node parent_obj) = Some parent_box ->
      bounds self st
      = (st, inr (relative_bounds box (bb_x parent_box) (bb_y parent_box)
                    (config_scale st))))
  /\ (parent obj = None ->
      bounds self st
      = (st, inr (relative_bounds box zero zero (config_scale st)))).
Proof.
  intros Hself Hbox. split.
  - intros p parent_obj parent_box Hp Hparent Hpbox.
    unfold bounds. rewrite (bind_inr _ _ _ _ _ (deref_Some st self obj Hself)).
    rewrite Hp, bind_assoc, (bind_inr _ _ _ _ _ (deref_Some st p parent_obj Hparent)).
    by rewrite Hpbox, Hbox.
  - intros Hp.
    unfold bounds. rewrite (bind_inr _ _ _ _ _ (deref_Some st self obj Hself)).
    by rewrite Hp, Hbox.
Qed.

End BoundsTransform.

(** ** VectorPathEmitter *)

Section VectorPathEmitter.

Context {num : Type} `{!Number num}.

Lemma py_index_0 {A : Type} (l : list A) : py_index l 0 = l !! 0.
Proof. unfold py_index. by destruct l. Qed.

Lemma py_index_last {A : Type} (l : list A) : py_index l (-1) = last l.
Proof.
  unfold py_index. rewrite last_lookup.
  destruct l as [|a l]; [done|].
  cbn [length]. rewrite Nat2Z.inj_succ.
  replace (-1 + Z.succ (Z.of_nat (length l)))%Z with (Z.of_nat (length l)) by lia.
  change (-1 <? 0)%Z with true. cbn iota.
  rewrite (proj2 (Z.ltb_ge _ _)) by lia.
  rewrite (proj2 (Z.leb_gt _ _)) by lia.
  by rewrite Nat2Z.id.
Qed.

(** What a solid fill emits: the opacity is the graphic's, 1 when it has
    none, times the alpha of the colour, 0 when it has none (line 61). *)
Lemma generate_path_solid (figma_node : FigmaNode num) path_data
    (graphic : Graphic num) (color : Color num) st st' lines :
  graphic_type graphic = "SOLID" ->
  graphic_color graphic = Some color ->
  generate_path figma_node path_data graphic st = (st', inr lines) ->
  exists hex,
    lines = [SvgPath (FillColor hex) (default zero (strokeWeight figma_node))
               (num_mul (default one (graphic_opacity graphic))
                        (default zero (color_a color)))
               path_data].
Proof.
  intros Htype Hcolor. unfold generate_path. rewrite Htype, Hcolor.
  rewrite bool_decide_eq_true_2 by done.
  unfold bind, modify, require, ret. simpl.
  destruct (color_channels color _) as [st1 [e|hex]]; [done|].
  intros [= _ <-]. by exists hex.
Qed.

(** C8. Radial gradient: the gradient that a radial graphic emits has its
    centre at the first handle point and, as radius, the Euclidean distance
    between the first and the last handle points. *)
Theorem generate_path_radial (figma_node : FigmaNode num) path_data
    (graphic : Graphic num) (handles : list (Point num)) (p0 p1 : Point num)
    st st' lines :
  graphic_type graphic = "GRADIENT_RADIAL" ->
  gradientHandlePositions graphic = Some handles ->
  handles !! 0 = Some p0 ->
  last handles = Some p1 ->
  generate_path figma_node path_data graphic st = (st', inr lines) ->
  exists rest,
    lines
    = SvgRadialGradient ("gradient" +:+ pretty (S (graphic_counter st)))
        (point_x p0) (point_y p0) (euclidean_distance p0 p1) :: rest.
Proof.
  intros Htype Hhandles H0 H1. unfold generate_path.
  rewrite Htype, Hhandles.
  rewrite !bool_decide_eq_false_2 by done.
  rewrite bool_decide_eq_true_2 by done.
  unfold bind, modify, require, ret, get, index. cbn -[py_index gradient_stops].
  rewrite py_index_0, H0. cbn -[py_index gradient_stops].
  rewrite py_index_last, H1. cbn -[py_index gradient_stops].
  destruct (gradientStops graphic) as [stops|]; [|done]. cbn -[gradient_stops].
  destruct (gradient_stops _ stops _) as [st1 [e|stop_lines]]; [done|].
  intros [= _ <-]. eauto.
Qed.

(** *** What the emitter does to the state *)

Lemma to_int_pure (x : num) (st : State num) : (to_int x st).1 = st.
Proof. unfold to_int, ret, raise. by destruct (num_int x). Qed.

Lemma require_pure {A : Type} key (o : option A) (st : State num) :
  (require key o st).1 = st.
Proof. by destruct o. Qed.

Lemma index_pure {A : Type} (l : list A) i (st : State num) :
  (index l i st).1 = st.
Proof. unfold index. by destruct (py_index l i). Qed.

(** A computation that leaves the state alone, followed by another. *)
Lemma bind_pure {A B : Type} (m : M num A) (k : A -> M num B) st :
  (m st).1 = st ->
  bind m k st
  = match (m st).2 with inr a => k a st | inl e => (st, inl e) end.
Proof. unfold bind. destruct (m st) as [st' [e|a]]; simpl; by intros ->. Qed.

Lemma color_channels_pure (color : Color num) (st : State num) :
  (color_channels color st).1 = st.
Proof.
  unfold color_channels.
  repeat (rewrite bind_pure by apply to_int_pure; destruct (to_int _ st).2; [done|]).
  done.
Qed.

Lemma gradient_stops_pure opacity (stops : list (GradientStop num))
    (st : State num) :
  (gradient_stops opacity stops st).1 = st.
Proof.
  induction stops as [|stop stops IH]; [done|]. cbn [gradient_stops].
  rewrite bind_pure by apply color_channels_pure.
  destruct (color_channels _ st).2; [done|].
  rewrite bind_pure by apply IH. by destruct (gradient_stops _ _ st).2.
Qed.

Ltac pure_step :=
  first
    [ rewrite bind_get
    | rewrite bind_pure by
        first [ apply require_pure | apply index_pure | apply to_int_pure
              | apply color_channels_pure | apply gradient_stops_pure ];
      match goal with
      | |- context [match (?m ?s).2 with _ => _ end] =>
          destruct ((m s).2); [try done|]
      end ].

(** Every call of [generate_path] counts one path, whatever it returns, and
    writes no file. *)
Lemma generate_path_state (figma_node : FigmaNode num) path_data
    (graphic : Graphic num) (st : State num) :
  let st' := (generate_path figma_node path_data graphic st).1 in
  graphic_counter st' = S (graphic_counter st)
  /\ svg_counter st' = svg_counter st
  /\ svg_files st' = svg_files st.
Proof.
  unfold generate_path.
  rewrite (bind_inr _ _ st (set_graphic_counter S st) tt) by done.
  repeat case_bool_decide; repeat pure_step; done.
Qed.

Lemma gradient_stops_ids opacity (stops : list (GradientStop num))
    (st : State num) :
  match (gradient_stops opacity stops st).2 with
  | inr lines => lines ≫= line_ids = []
  | inl _ => True
  end.
Proof.
  induction stops as [|stop stops IH]; [done|]. cbn [gradient_stops].
  pure_step. rewrite bind_pure by apply gradient_stops_pure.
  by destruct (gradient_stops _ _ st).2.
Qed.

Lemma bind_app_ids (l1 l2 : list (SvgLine num)) :
  (l1 ++ l2) ≫= line_ids = (l1 ≫= line_ids) ++ (l2 ≫= line_ids).
Proof. apply bind_app. Qed.

(** The markup of one pair defines at most one id, numbered by the path
    counter as [generate_path] has advanced it. *)
Lemma generate_path_ids (figma_node : FigmaNode num) path_data
    (graphic : Graphic num) (st : State num) :
  match (generate_path figma_node path_data graphic st).2 with
  | inr lines =>
      exists tags,
        lines ≫= line_ids = render_id <$> tags
        /\ Forall (fun t => tag_number t = S (graphic_counter st)) tags
        /\ length tags <= 1
  | inl _ => True
  end.
Proof.
  unfold generate_path.
  rewrite (bind_inr _ _ st (set_graphic_counter S st) tt) by done.
  repeat case_bool_decide.
  - repeat pure_step. cbn. exists []. repeat split; [constructor|simpl; lia].
  - repeat pure_step. cbn. eexists [ImageId _]. repeat split; [|simpl; lia].
    by repeat constructor.
  - do 4 pure_step. rewrite bind_get.
    pose proof (gradient_stops_ids (default one (graphic_opacity graphic)) l0
                  (set_graphic_counter S st)) as Hstops.
    pure_step. cbn [ret snd]. rewrite bind_cons, bind_app_ids, Hstops. cbn.
    eexists [GradientId _]. repeat split; [|simpl; lia]. by repeat constructor.
  - do 4 pure_step. rewrite bind_get.
    pose proof (gradient_stops_ids (default one (graphic_opacity graphic)) l0
                  (set_graphic_counter S st)) as Hstops.
    pure_step. cbn [ret snd]. rewrite bind_cons, bind_app_ids, Hstops. cbn.
    eexists [GradientId _]. repeat split; [|simpl; lia]. by repeat constructor.
  - rewrite (bind_inr _ _ _ (unsupported_graphic graphic st) tt) by done.
    cbn. exists []. repeat split; [constructor|simpl; lia].
Qed.

(** *** The loops of [create_svg_file] *)

Lemma generate_paths_app (figma_node : FigmaNode num)
    (before after : list (Geometry * Graphic num)) st :
  generate_paths figma_node (before ++ after) st
  = (let* lines1 := generate_paths figma_node before in
     let* lines2 := generate_paths figma_node after in
     ret (lines1 ++ lines2)) st.
Proof.
  revert st. induction before as [|[geometry graphic] before IH]; intros st.
  - cbn [app generate_paths]. unfold bind, ret.
    by destruct (generate_paths figma_node after st) as [st' [e|lines]].
  - cbn [app generate_paths]. unfold bind at 1 3 4.
    destruct (generate_path _ _ _ st) as [st1 [e|lines]]; [done|].
    unfold bind at 1 3. rewrite IH. unfold bind, ret.
    destruct (generate_paths figma_node before st1) as [st2 [e|lines1]]; [done|].
    destruct (generate_paths figma_node after st2) as [st3 [e|lines2]]; [done|].
    by rewrite app_assoc.
Qed.

Lemma generate_paths_app_bind {B : Type} (figma_node : FigmaNode num)
    (before after : list (Geometry * Graphic num))
    (k : list (SvgLine num) -> M num B) st :
  bind (generate_paths figma_node (before ++ after)) k st
  = (let* lines1 := generate_paths figma_node before in
     let* lines2 := generate_paths figma_node after in
     k (lines1 ++ lines2)) st.
Proof.
  unfold bind at 1. rewrite generate_paths_app. unfold bind, ret.
  destruct (generate_paths figma_node before st) as [st1 [e|lines1]]; [done|].
  by destruct (generate_paths figma_node after st1) as [st2 [e|lines2]].
Qed.


(** *** The markup does not depend on the state, ids apart *)


Lemma stateless_raise {A : Type} e : stateless (raise (num:=num) (A:=A) e).
Proof. done. Qed.











Lemma generate_paths_state (figma_node : FigmaNode num)
    (pairs : list (Geometry * Graphic num)) (st : State num) :
  let st' := (generate_paths figma_node pairs st).1 in
  graphic_counter st <= graphic_counter st'
  /\ svg_counter st' = svg_counter st
  /\ svg_files st' = svg_files st.
Proof.
  revert st. induction pairs as [|[geometry graphic] pairs IH]; intros st.
  - by cbn.
  - cbn zeta. cbn [generate_paths].
    pose proof (generate_path_state figma_node (path geometry) graphic st) as Hp.
    destruct (generate_path _ _ _ st) as [st1 [e|lines]] eqn:E;
      cbn in Hp; destruct Hp as (? & ? & ?).
    + rewrite (bind_inl _ _ _ _ _ E). cbn. repeat split; [lia|done..].
    + rewrite (bind_inr _ _ _ _ _ E). specialize (IH st1). cbn zeta in IH.
      destruct (generate_paths figma_node pairs st1) as [st2 [e|more]] eqn:E2;
        [rewrite (bind_inl _ _ _ _ _ E2)|rewrite (bind_inr _ _ _ _ _ E2)];
        cbn in *; destruct IH as (? & ? & ?);
        repeat split; try congruence; lia.
Qed.

(** A loop that ends without an exception has counted every pair, and the
    ids that its markup defines are numbered apart, after the ids of the
    markup before it. *)
Lemma generate_paths_ids (figma_node : FigmaNode num)
    (pairs : list (Geometry * Graphic num)) (st : State num) :
  match generate_paths figma_node pairs st with
  | (st', inr lines) =>
      graphic_counter st' = graphic_counter st + length pairs
      /\ exists tags,
          lines ≫= line_ids = render_id <$> tags
          /\ NoDup (tag_number <$> tags)
          /\ Forall (fun t => graphic_counter st < tag_number t
                              <= graphic_counter st') tags
  | (_, inl _) => True
  end.
Proof.
  revert st. induction pairs as [|[geometry graphic] pairs IH]; intros st.
  - cbn. split; [lia|]. exists []. repeat split; constructor.
  - cbn [generate_paths]. unfold bind at 1.
    pose proof (generate_path_state figma_node (path geometry) graphic st) as Hp.
    pose proof (generate_path_ids figma_node (path geometry) graphic st) as Hi.
    destruct (generate_path _ _ _ st) as [st1 [e|lines]]; [done|].
    cbn in Hp, Hi. destruct Hp as (Hc & _ & _), Hi as (tags1 & Hids1 & Hnum1 & Hlen1).
    unfold bind, ret. specialize (IH st1).
    destruct (generate_paths figma_node pairs st1) as [st2 [e|more]]; [done|].
    destruct IH as (Hc2 & tags2 & Hids2 & Hnd2 & Hnum2).
    split; [simpl; lia|]. exists (tags1 ++ tags2). repeat split.
    + by rewrite bind_app_ids, Hids1, Hids2, fmap_app.
    + rewrite fmap_app. apply NoDup_app. repeat split; [|..|done].
      * destruct tags1 as [|t [|t' tags1]]; [constructor|..|simpl in Hlen1; lia].
        apply NoDup_singleton.
      * intros n [t1 [-> Ht1]]%list_elem_of_fmap [t2 [Heq Ht2]]%list_elem_of_fmap.
        rewrite Forall_forall in Hnum1, Hnum2.
        specialize (Hnum1 _ Ht1). specialize (Hnum2 _ Ht2). lia.
    + apply Forall_app. split.
      * eapply Forall_impl; [exact Hnum1|]. intros t Ht. simpl in Ht. lia.
      * eapply Forall_impl; [exact Hnum2|]. intros t Ht. simpl in Ht. lia.
Qed.


Lemma create_svg_file_as_pairs (figma_node : FigmaNode num) filename st :
  create_svg_file figma_node filename st
  = create_svg_file_of_pairs figma_node filename
      (py_zip (default [] (fillGeometry figma_node))
              (default [] (fills figma_node))
       ++ py_zip (default [] (strokeGeometry figma_node))
                 (default [] (strokes figma_node))) st.
Proof.
  unfold create_svg_file, create_svg_file_of_pairs.
  apply bind_cong. intros box st1. apply bind_cong. intros _ st2.
  apply bind_cong. intros _ st3. by rewrite generate_paths_app_bind.
Qed.

(** What writing one file does to the counters and the files. *)
Lemma create_svg_file_effect (figma_node : FigmaNode num) filename
    (st : State num) :
  match create_svg_file figma_node filename st with
  | (st', inr _) =>
      graphic_counter st <= graphic_counter st'
      /\ svg_counter st' = svg_counter st
      /\ exists lines tags,
          svg_files st' = svg_files st ++ [(filename, lines)]
          /\ lines ≫= line_ids = render_id <$> tags
          /\ NoDup (tag_number <$> tags)
          /\ Forall (fun t => graphic_counter st < tag_number t
                              <= graphic_counter st') tags
  | (st', inl _) =>
      graphic_counter st <= graphic_counter st'
      /\ svg_counter st' = svg_counter st
      /\ svg_files st' = svg_files st
  end.
Proof.
  rewrite create_svg_file_as_pairs. set (pairs := _ ++ _).
  unfold create_svg_file_of_pairs.
  do 3 pure_step.
  pose proof (generate_paths_ids figma_node pairs st) as Hi.
  pose proof (generate_paths_state figma_node pairs st) as Hs.
  destruct (generate_paths figma_node pairs st) as [st1 [e|lines]] eqn:E.
  - by rewrite (bind_inl _ _ _ _ _ E).
  - rewrite (bind_inr _ _ _ _ _ E). cbn in *.
    destruct Hi as (_ & tags & ? & ? & ?), Hs as (? & ? & ?).
    split; [done|]. split; [done|].
    exists lines, tags. repeat split; try done. congruence.
Qed.


End VectorPathEmitter.

(** ** The counters of a run *)

Section Counters.

Context {num : Type} `{!Number num}.

Lemma pure_keeps {A : Type} (m : M num A) : pure m -> keeps_emitter_state m.
Proof. intros Hm st. by rewrite Hm. Qed.

Lemma pure_bind {A B : Type} (m : M num A) (k : A -> M num B) :
  pure m -> (forall a, pure (k a)) -> pure (bind m k).
Proof.
  intros Hm Hk st. rewrite bind_pure by apply Hm.
  destruct (m st).2; [done|apply Hk].
Qed.

Lemma keeps_bind {A B : Type} (m : M num A) (k : A -> M num B) :
  keeps_emitter_state m -> (forall a, keeps_emitter_state (k a)) ->
  keeps_emitter_state (bind m k).
Proof.
  intros Hm Hk st. specialize (Hm st). unfold bind.
  destruct (m st) as [st1 [e|a]]; [done|].
  rewrite <-Hm. apply Hk.
Qed.

Lemma pure_ret {A : Type} (a : A) : pure (ret (num:=num) a).
Proof. done. Qed.
Lemma pure_raise {A : Type} e : pure (raise (num:=num) (A:=A) e).
Proof. done. Qed.
Lemma pure_get : pure (get (num:=num)).
Proof. done. Qed.
Lemma pure_deref r : pure (deref (num:=num) r).
Proof. intros st. apply deref_state. Qed.
Lemma pure_to_int (x : num) : pure (to_int x).
Proof. intros st. apply to_int_pure. Qed.
Lemma pure_require {A : Type} key (o : option A) : pure (require (num:=num) key o).
Proof. intros st. apply require_pure. Qed.
Lemma pure_index {A : Type} (l : list A) i : pure (index (num:=num) l i).
Proof. intros st. apply index_pure. Qed.

Lemma keeps_modify (f : State num -> State num) :
  (forall st, emitter_state (f st) = emitter_state st) ->
  keeps_emitter_state (modify f).
Proof. intros Hf st. apply Hf. Qed.

Ltac pure_chain :=
  repeat first
    [ apply pure_bind; [|intros ?]
    | apply pure_ret | apply pure_raise | apply pure_get | apply pure_deref
    | apply pure_to_int | apply pure_require | apply pure_index
    | match goal with |- pure (match ?x with _ => _ end) => destruct x end
    | match goal with |- pure (let '(_, _) := ?x in _) => destruct x end ].

Lemma pure_bounds self : pure (bounds (num:=num) self).
Proof. unfold bounds. pure_chain. Qed.

Lemma pure_pyqt_bounds self : pure (pyqt_bounds (num:=num) self).
Proof.
  unfold pyqt_bounds. apply pure_bind; [apply pure_bounds|].
  intros [[[x y] w] h]. pure_chain.
Qed.

Ltac keeps_chain :=
  repeat first
    [ apply keeps_bind; [|intros ?]
    | apply pure_keeps; first
        [ apply pure_ret | apply pure_raise | apply pure_get | apply pure_deref
        | apply pure_to_int | apply pure_require | apply pure_index ]
    | apply keeps_modify; intros ?; reflexivity
    | match goal with
      | |- keeps_emitter_state (match ?x with _ => _ end) => destruct x
      | |- keeps_emitter_state (if ?x then _ else _) => destruct x
      end ].

Lemma keeps_create_name (figma_node : FigmaNode num) :
  keeps_emitter_state (create_name figma_node).
Proof. unfold create_name. keeps_chain. Qed.

Lemma keeps_DesignGenerator_init (figma_node : FigmaNode num) parent :
  keeps_emitter_state (DesignGenerator_init figma_node parent).
Proof.
  unfold DesignGenerator_init, alloc.
  apply keeps_bind; [apply keeps_create_name|]. intros name. keeps_chain.
Qed.

Lemma keeps_FrameGenerator_init (figma_node : FigmaNode num) parent :
  keeps_emitter_state (FrameGenerator_init figma_node parent).
Proof.
  unfold FrameGenerator_init.
  apply keeps_bind; [apply keeps_DesignGenerator_init|]. intros self. keeps_chain.
Qed.

Lemma keeps_CustomButtonGenerator_init (figma_node : FigmaNode num) parent group :
  keeps_emitter_state (CustomButtonGenerator_init figma_node parent group).
Proof.
  unfold CustomButtonGenerator_init.
  apply keeps_bind; [apply keeps_DesignGenerator_init|]. intros self. keeps_chain.
Qed.

Lemma keeps_FrameGenerator_generate_design (frame : FrameGenerator) :
  keeps_emitter_state (FrameGenerator_generate_design (num:=num) frame).
Proof.
  unfold FrameGenerator_generate_design, FactoryGenerator_init.
  do 3 (apply keeps_bind; [keeps_chain|intros ?]).
  apply keeps_DesignGenerator_init.
Qed.

(** *** The file of a vector node *)

Lemma VectorGenerator_generate_design_effect (self : ref) (st : State num) :
  let st' := (VectorGenerator_generate_design self st).1 in
  graphic_counter st <= graphic_counter st'
  /\ svg_counter st <= svg_counter st'
  /\ (svg_files st' = svg_files st
      \/ exists lines tags,
          svg_counter st' = S (svg_counter st)
          /\ svg_files st'
             = svg_files st ++ [(svg_filename_of (S (svg_counter st)), lines)]
          /\ lines ≫= line_ids = render_id <$> tags
          /\ NoDup (tag_number <$> tags)
          /\ Forall (fun t => graphic_counter st < tag_number t
                              <= graphic_counter st') tags).
Proof.
  cbn zeta. unfold VectorGenerator_generate_design.
  rewrite bind_pure by apply deref_state.
  destruct (deref self st).2 as [e|obj]; [cbn; auto|].
  rewrite bind_modify, bind_get.
  set (st1 := set_svg_counter S st).
  pose proof (create_svg_file_effect (figma_node obj)
                (svg_filename_of (svg_counter st1)) st1) as He.
  destruct (create_svg_file _ _ st1) as [st2 [e|u]] eqn:E.
  - rewrite (bind_inl _ _ _ _ _ E). cbn in *.
    destruct He as (? & ? & ?). repeat split; [lia|lia|by left].
  - rewrite (bind_inr _ _ _ _ _ E).
    cbn beta.
    match goal with
    | |- context [(?rest st2).1] => assert (pure rest) as Hpure
    end.
    { apply pure_bind; [apply pure_require|]. intros box.
      apply pure_bind; [destruct (parent obj); [apply pure_deref|apply pure_raise]|].
      intros parent_obj. apply pure_bind; [apply pure_pyqt_bounds|]. intros rect.
      pure_chain. }
    rewrite (Hpure st2). clear Hpure.
    cbn in *. destruct He as (Hgc & Hsc & lines & tags & Hfiles & Hids & Hnd & Hnum).
    repeat split; [done|lia|].
    right. exists lines, tags. by rewrite Hsc.
Qed.

(** *** The invariant of a run *)

Lemma string_app_inv_tail (s1 s2 t : string) : s1 +:+ t = s2 +:+ t -> s1 = s2.
Proof.
  revert s2. induction s1 as [|a s1 IH]; intros [|b s2] H; [done| | |].
  - apply (f_equal String.length) in H.
    rewrite !string_app_length in H. simpl in H. lia.
  - apply (f_equal String.length) in H.
    rewrite !string_app_length in H. simpl in H. lia.
  - change (String a (s1 +:+ t) = String b (s2 +:+ t)) in H.
    injection H as -> H. f_equal. by apply IH.
Qed.

Lemma svg_filename_of_inj : Inj (=) (=) svg_filename_of.
Proof.
  intros n m H. unfold svg_filename_of in H. apply String.app_inj in H.
  apply string_app_inv_tail in H. by apply (inj pretty) in H.
Qed.

Lemma render_id_inj : Inj (=) (=) render_id.
Proof.
  intros [n|n] [m|m] H; cbn in H; try discriminate.
  - apply (String.app_inj "gradient") in H. by apply (inj pretty) in H as ->.
  - apply (String.app_inj "img") in H. by apply (inj pretty) in H as ->.
Qed.

Lemma counters_invariant_initial (scale : num) :
  counters_invariant (initial_state scale).
Proof. exists [], []. repeat split; constructor. Qed.

Lemma counters_invariant_kept (st st' : State num) :
  emitter_state st' = emitter_state st ->
  counters_invariant st -> counters_invariant st'.
Proof.
  unfold emitter_state. intros [= Hg Hs Hf] Hinv.
  unfold counters_invariant, written_filenames, written_ids in *.
  by rewrite Hg, Hs, Hf.
Qed.

Lemma counters_invariant_vector (self : ref) (st : State num) :
  counters_invariant st ->
  counters_invariant (VectorGenerator_generate_design self st).1.
Proof.
  intros (ns & tags & Hnames & Hnd & Hle & Hids & Hndt & Hlet).
  pose proof (VectorGenerator_generate_design_effect self st) as He.
  cbn zeta in He. set (st' := (VectorGenerator_generate_design self st).1) in *.
  destruct He as (Hg & Hs & [Hsame|(lines & tags' & Hsc & Hfiles & Hids' & Hnd' & Hnum')]).
  - exists ns, tags. unfold written_filenames, written_ids in *.
    rewrite Hsame. repeat split; try done.
    + eapply Forall_impl; [exact Hle|]. intros n Hn. simpl in Hn. lia.
    + eapply Forall_impl; [exact Hlet|]. intros t Ht. simpl in Ht. lia.
  - exists (ns ++ [S (svg_counter st)]), (tags ++ tags').
    unfold written_filenames, written_ids in *. rewrite Hfiles.
    pose proof (proj1 (Forall_forall _ _) Hle) as Hle'.
    pose proof (proj1 (Forall_forall _ _) Hlet) as Hlet'.
    pose proof (proj1 (Forall_forall _ _) Hnum') as Hnum''.
    clear Hle Hlet Hnum'. rename Hle' into Hle, Hlet' into Hlet, Hnum'' into Hnum'.
    cbn beta in Hle, Hlet, Hnum'. repeat split.
    + by rewrite !fmap_app, Hnames.
    + apply NoDup_app. repeat split; [done| |apply NoDup_singleton].
      intros n Hn ->%list_elem_of_singleton. specialize (Hle _ Hn). lia.
    + apply Forall_app. split; apply Forall_forall.
      * intros n Hn. specialize (Hle _ Hn). lia.
      * intros n ->%list_elem_of_singleton. lia.
    + rewrite bind_app, Hids, fmap_app. f_equal. cbn. by rewrite app_nil_r.
    + rewrite fmap_app. apply NoDup_app. repeat split; [done| |done].
      intros n [t [-> Ht]]%list_elem_of_fmap [t' [Heq Ht']]%list_elem_of_fmap.
      specialize (Hlet _ Ht). specialize (Hnum' _ Ht'). lia.
    + apply Forall_app. split; apply Forall_forall.
      * intros t Ht. specialize (Hlet _ Ht). lia.
      * intros t Ht. specialize (Hnum' _ Ht). lia.
Qed.

Lemma step_counters (st st' : State num) :
  step st st' ->
  graphic_counter st <= graphic_counter st'
  /\ svg_counter st <= svg_counter st'
  /\ (counters_invariant st -> counters_invariant st').
Proof.
  assert (forall st st' : State num,
    emitter_state st' = emitter_state st ->
    graphic_counter st <= graphic_counter st'
    /\ svg_counter st <= svg_counter st'
    /\ (counters_invariant st -> counters_invariant st')) as Hkeep.
  { intros s s' Heq. pose proof (counters_invariant_kept s s' Heq).
    unfold emitter_state in Heq. injection Heq as -> -> _. auto. }
  destruct 1.
  - apply Hkeep, keeps_DesignGenerator_init.
  - apply Hkeep, keeps_FrameGenerator_init.
  - apply Hkeep, keeps_CustomButtonGenerator_init.
  - apply Hkeep, keeps_FrameGenerator_generate_design.
  - pose proof (VectorGenerator_generate_design_effect self st) as (? & ? & _).
    repeat split; [done..|]. apply counters_invariant_vector.
Qed.

Lemma reachable_counters_invariant scale (st : State num) :
  reachable scale st -> counters_invariant st.
Proof.
  induction 1 as [|st st' _ IH Hstep]; [apply counters_invariant_initial|].
  by apply (step_counters st st' Hstep).
Qed.

(** C7, as the code has it.  There are two counters, one for the ids of the
    markup ([SvgGenerator.graphic_counter], advanced by every call of
    [generate_path]) and one for the file names
    ([VectorGenerator.svg_counter], advanced by every [generate_design] of a
    vector node).  Neither decreases in a step of a run, and in every state
    of a run the names of the files written are pairwise distinct and so are
    the ids that their markup defines. *)
Theorem counters_monotonic_and_distinct scale (st : State num) :
  reachable scale st ->
  NoDup (written_filenames st)
  /\ NoDup (written_ids st)
  /\ (forall st',
        step st st' ->
        graphic_counter st <= graphic_counter st'
        /\ svg_counter st <= svg_counter st').
Proof.
  intros Hreach.
  destruct (reachable_counters_invariant scale st Hreach)
    as (ns & tags & -> & Hnd & _ & -> & Hndt & _).
  repeat split.
  - by apply (@NoDup_fmap_2 _ _ _ svg_filename_of_inj).
  - apply (@NoDup_fmap_2 _ _ _ render_id_inj). by apply NoDup_fmap_1 in Hndt.
  - by apply step_counters.
  - by apply step_counters.
Qed.

End Counters.

(** ** The generator tree *)

Section GeneratorTree.

Context {num : Type} `{!Number num}.


Lemma DesignGenerator_init_root (figma_node : FigmaNode num) (st : State num) :
  exists name obj,
    (name ∉ used_names st)
    /\ parent obj = None /\ children obj = [] /\ q_widget_name obj = name
    /\ short_class_name obj = make_short_class_name name
    /\ DesignGenerator_init figma_node None st
       = (set_heap (fun h => h ++ [obj])
            (set_used_names (fun used => used ∪ {[name]}) st),
          inr (length (heap st))).
Proof.
  destruct (create_name_fresh figma_node st) as (name & Hname & Hfresh).
  exists name. eexists. split; [done|]. unfold DesignGenerator_init.
  rewrite (bind_inr _ _ _ _ _ Hname). by repeat split.
Qed.


(** The objects that were in the heap stay where they are; one that is not
    the parent is as it was. *)
Lemma DesignGenerator_init_other (figma_node : FigmaNode num) (parent : option ref)
    (st st1 : State num) (self r : ref) (obj : DesignGenerator num) :
  DesignGenerator_init figma_node parent st = (st1, inr self) ->
  parent <> Some r ->
  heap st !! r = Some obj ->
  heap st1 !! r = Some obj.
Proof.
  intros Hinit Hne Hr. destruct parent as [p|].
  - unfold DesignGenerator_init in Hinit.
    destruct (create_name_fresh figma_node st) as (name & Hname & _).
    rewrite (bind_inr _ _ _ _ _ Hname) in Hinit.
    rewrite bind_pure in Hinit by apply deref_state.
    destruct (deref p _).2 as [e|parent_obj]; [done|].
    injection Hinit as <- <-. cbn.
    rewrite list_lookup_alter_ne by congruence.
    by rewrite lookup_app_l by (by eapply lookup_lt_Some).
  - destruct (DesignGenerator_init_root figma_node st)
      as (name & o & _ & _ & _ & _ & _ & Heq).
    rewrite Heq in Hinit. injection Hinit as <- <-. cbn.
    by rewrite lookup_app_l by (by eapply lookup_lt_Some).
Qed.


(** *** The toggles of a custom button *)




End GeneratorTree.

(** ** The properties on the example documents *)

Import Examples.
Set Warnings "-inexact-float".


(** C2 on the child box (110, 60, 10, 20) under a parent at (100, 50), with
    scale 2. *)
Lemma bounds_relative_witness :
  bounds 1 bounds_state = (bounds_state, inr (20, 20, 20, 40)%float).
Proof.
  change (20, 20, 20, 40)%float
    with (relative_bounds (box 110 60 10 20) 100%float 50%float
            (config_scale bounds_state)).
  apply (proj1 (bounds_relative bounds_state 1
                  (generator (plain_node "Child" (Some (box 110 60 10 20)))
                     (Some 0) [] "child")
                  (box 110 60 10 20) eq_refl eq_refl)
           0
           (generator (plain_node "Parent" (Some (box 100 50 300 300)))
              None [1] "parent")
           (box 100 50 300 300));
    reflexivity.
Defined.

(** The opacity of a solid fill with alpha 0.4 under the opacity 0.5. *)
Example solid_opacity_composed :
  (generate_path vector_node "M0 0" (solid (Some 0.4) (Some 0.5))%float
     (initial_state 1%float)).2
  = inr [SvgPath (FillColor (255, 0, 0)%Z) 0%float 0.2%float "M0 0"].
Proof. reflexivity. Qed.

(** C3 at a solid fill whose colour has no alpha, under the opacity 0.5:
    [generate_path] takes 0 for the missing alpha (line 61), and the opacity
    that it emits is 0, not 0.5. *)
Theorem solid_without_alpha_opacity :
  (generate_path vector_node "M0 0" (solid None (Some 0.5%float))
     (initial_state 1%float)).2
  = inr [SvgPath (FillColor (255, 0, 0)%Z) 0%float 0%float "M0 0"].
Proof. reflexivity. Qed.

(** The same colour as a gradient stop: there the missing alpha is 1 (lines
    82 and 97). *)
Example stop_without_alpha_opacity :
  (gradient_stops 0.5%float [ {| stop_position := 0%float; stop_color := red |} ]
     (initial_state 1%float)).2
  = inr [SvgStop 0%float (255, 0, 0)%Z 0.5%float].
Proof. reflexivity. Qed.

(** C4: a backing group with three children, then one with four. *)
Example custom_button_three_children :
  (CustomButtonGenerator_init button_node None 0 (group_state 3)).2
  = inl (Exception "Custom button button should have at least 4 children").
Proof. reflexivity. Qed.

Example custom_button_four_children :
  (CustomButtonGenerator_init button_node None 0 (group_state 4)).2
  = inr {| button_self := 5;
           hide_show_mouse_over_generator := {| visibility_target := 4 |};
           hide_show_pressed_generator := {| visibility_target := 3 |};
           hide_show_disabled_generator := {| visibility_target := 2 |} |}.
Proof. reflexivity. Qed.

(** A button constructed under its own backing group is the last child of the
    group when the children are counted. *)
Example custom_button_under_its_group :
  (CustomButtonGenerator_init button_node (Some 0) 0 (group_state 3)).2
  = inr {| button_self := 4;
           hide_show_mouse_over_generator := {| visibility_target := 4 |};
           hide_show_pressed_generator := {| visibility_target := 3 |};
           hide_show_disabled_generator := {| visibility_target := 2 |} |}.
Proof. reflexivity. Qed.




Lemma after_design_reachable : reachable 1%float after_design.
Proof.
  unfold after_design, after_vector, after_parent.
  repeat (eapply reachable_step; [|constructor]). constructor.
Qed.

(** C7 on the run of the examples. *)
Lemma counters_monotonic_and_distinct_witness :
  NoDup (written_filenames after_design)
  /\ NoDup (written_ids after_design)
  /\ (forall st',
        step after_design st' ->
        graphic_counter after_design <= graphic_counter st'
        /\ svg_counter after_design <= svg_counter st').
Proof.
  apply (counters_monotonic_and_distinct 1%float after_design).
  apply after_design_reachable.
Defined.

(** C7 as stated fails on the run of the examples: after the design of one
    vector node with two aligned fills, the file counter is 1 and the path
    counter is 2; the file is [file1.svg] and the id in it is [gradient1]. *)
Lemma single_shared_counter_fails :
  reachable 1%float after_design
  /\ svg_counter after_design = 1
  /\ graphic_counter after_design = 2
  /\ written_filenames after_design = ["file1.svg"]
  /\ written_ids after_design = ["gradient1"]
  /\ ~ single_shared_counter (num:=float).
Proof.
  split; [apply after_design_reachable|]. repeat split; try reflexivity.
  intros Hshared. specialize (Hshared 1%float after_design after_design_reachable).
  discriminate Hshared.
Qed.

(** C8 on the handles (0, 0) and (3, 4): the radius is 5. *)
Lemma generate_path_radial_witness :
  exists rest,
    [SvgRadialGradient "gradient1" 0%float 0%float 5%float;
     SvgStop 0%float (255, 0, 0)%Z 1%float;
     SvgRadialGradientEnd;
     SvgPath (FillGradient "gradient1") 0%float 1%float "M0 0"]
    = SvgRadialGradient "gradient1" 0%float 0%float 5%float :: rest.
Proof.
  change (SvgRadialGradient "gradient1" 0%float 0%float 5%float)
    with (SvgRadialGradient
            ("gradient" +:+ pretty (S (graphic_counter (initial_state 1%float))))
            (point_x {| point_x := 0%float; point_y := 0%float |})
            (point_y {| point_x := 0%float; point_y := 0%float |})
            (euclidean_distance {| point_x := 0%float; point_y := 0%float |}
               {| point_x := 3%float; point_y := 4%float |})) at 2.
  apply (generate_path_radial vector_node "M0 0" radial
           [ {| point_x := 0%float; point_y := 0%float |};
             {| point_x := 3%float; point_y := 4%float |} ]
           {| point_x := 0%float; point_y := 0%float |}
           {| point_x := 3%float; point_y := 4%float |}
           (initial_state 1%float)
           (generate_path vector_node "M0 0" radial (initial_state 1%float)).1);
    reflexivity.
Defined.

